(** * Colorize: the packaging manifest [setup.py]

    The repository consists of one Python file, [setup.py].  It imports
    [setup] from [distutils.core], reads two files of the working directory
    and calls [setup] with ten keyword arguments.

    The development has three layers:
    - [Py]: the fragment of Python the manifest uses (import, [open],
      [read], a call with keyword arguments) as an error monad that logs
      the effects it performs;
    - [Manifest]: [setup.py] itself, written in that monad;
    - [Source]: the text of [setup.py], line by line, and a small scanner
      that splits it into logical lines.

    The function [setup] of [distutils.core] is not part of the repository:
    it is whatever the environment binds to that name. *)

From Stdlib Require Import Ascii String.
From stdpp Require Import gmap strings list.

Local Open Scope string_scope.

(** ** The fragment of Python used by the manifest *)

Module Py.

(** Keyword arguments of the manifest are string literals, strings read
    from files, and lists of string literals. *)
Inductive value : Type :=
| VStr (s : string)
| VList (l : list string).

#[global] Instance value_eq_dec : EqDecision value.
Proof. solve_decision. Defined.

(** The exceptions that the operations below can raise.  [SystemExit] is
    there for the callee: what a called function raises propagates. *)
Inductive exn : Type :=
| ModuleNotFoundError (module : string)
| ImportError (module name : string)
| FileNotFoundError (path : string)
| PermissionError (path : string)
| IsADirectoryError (path : string)
| UnicodeDecodeError (path : string)
| SystemExit (msg : string).

#[global] Instance exn_eq_dec : EqDecision exn.
Proof. solve_decision. Defined.

(** An entry of the working directory.  A text file holds the [str] that
    [read()] returns for it. *)
Inductive entry : Type :=
| Text (content : string)
| Undecodable
| NoPermission
| Directory.

(** Text mode with the default [newline=None]: on reading, the line endings
    CR LF and CR are handed out as LF. *)
Fixpoint universal_newlines (bytes : string) : string :=
  match bytes with
  | EmptyString => EmptyString
  | String c rest =>
      if Ascii.eqb c "013"%char then
        match rest with
        | String c' rest' =>
            if Ascii.eqb c' "010"%char then String "010"%char (universal_newlines rest')
            else String "010"%char (universal_newlines rest)
        | EmptyString => String "010"%char EmptyString
        end
      else String c (universal_newlines rest)
  end.


(** A function that is called with keyword arguments only, and whose
    result is discarded by the caller.  What it does is its own business:
    it sees the keyword arguments, the working directory and the command
    line, and it returns or raises. *)
Definition callable : Type :=
  gmap string value → gmap string entry → list string → exn + unit.

Record env : Type := Env {
  cwd : gmap string entry;                       (* working directory, by relative path *)
  argv : list string;                            (* [sys.argv] *)
  modules : gmap string (gmap string callable)   (* importable modules and packages, by
                                                    dotted name, with their attributes *)
}.

(** What the manifest does, in order.  The log holds the operations of the
    manifest's own statements; of what happens inside a callee only the
    outcome is observed. *)
Inductive event : Type :=
| EvImport (module name : string)
| EvOpen (path : string)
| EvRead (path : string)
| EvCall (fn : string) (kwargs : gmap string value).

(** A file object returned by [open]: its path and, when the bytes
    decode, its text. *)
Inductive file : Type :=
| File (path : string) (text : option string).

(** Computations: they see the environment, extend the log of events and
    either raise or return. *)
Definition py (A : Type) : Type := env → list event → list event * (exn + A).

#[global] Instance py_ret : MRet py := λ A x _ tr, (tr, inr x).

#[global] Instance py_bind : MBind py := λ A B f m e tr,
  match m e tr with
  | (tr', inl x) => (tr', inl x)
  | (tr', inr a) => f a e tr'
  end.

Definition raise {A} (x : exn) : py A := λ _ tr, (tr, inl x).

Definition log (ev : event) : py unit := λ _ tr, ((tr ++ [ev])%list, inr tt).

(** The packages that enclose a module: the proper prefixes of its dotted
    name, outermost first ([a] and [a.b] for [a.b.c]). *)
Fixpoint packages_from (prefix name : string) : list string :=
  match name with
  | EmptyString => []
  | String c name' =>
      if Ascii.eqb c "."%char
      then prefix :: packages_from (prefix +:+ String c EmptyString) name'
      else packages_from (prefix +:+ String c EmptyString) name'
  end.

Definition packages_of (module : string) : list string :=
  packages_from EmptyString module.

(** The first of the given names that cannot be imported. *)
Fixpoint first_missing (ms : gmap string (gmap string callable)) (names : list string)
  : option string :=
  match names with
  | [] => None
  | n :: names' =>
      match ms !! n with
      | None => Some n
      | Some _ => first_missing ms names'
      end
  end.

(** [from module import name]: the enclosing packages are imported first,
    then the module, and the exception names the first that is missing. *)
Definition import_from (module name : string) : py callable := λ e tr,
  match first_missing (modules e) (packages_of module) with
  | Some p => (tr, inl (ModuleNotFoundError p))
  | None =>
      match modules e !! module with
      | None => (tr, inl (ModuleNotFoundError module))
      | Some attrs =>
          match attrs !! name with
          | None => (tr, inl (ImportError module name))
          | Some f => ((tr ++ [EvImport module name])%list, inr f)
          end
      end
  end.

(** [open(path)], text mode, for reading *)
Definition open_ (path : string) : py file := λ e tr,
  match cwd e !! path with
  | None => (tr, inl (FileNotFoundError path))
  | Some NoPermission => (tr, inl (PermissionError path))
  | Some Directory => (tr, inl (IsADirectoryError path))
  | Some Undecodable => ((tr ++ [EvOpen path])%list, inr (File path None))
  | Some (Text s) => ((tr ++ [EvOpen path])%list, inr (File path (Some s)))
  end.

(** [f.read()]: the whole text, as it is *)
Definition read (f : file) : py string :=
  match f with
  | File path None => raise (UnicodeDecodeError path)
  | File path (Some s) => _ ← log (EvRead path); mret s
  end.

(** A call [fn(k1=v1, ...)] where the name [fn] is bound to [f]: the callee
    runs in the environment of the caller. *)
Definition invoke (f : callable) (kwargs : gmap string value) : py unit :=
  λ e tr, (tr, f kwargs (cwd e) (argv e)).

Definition call (fn : string) (f : callable) (kwargs : gmap string value) : py unit :=
  _ ← log (EvCall fn kwargs); invoke f kwargs.

Definition run {A} (m : py A) (e : env) : list event * (exn + A) := m e [].

End Py.

Import Py.

(** ** The manifest *)

Module Manifest.

(** The keyword arguments of the call, in the order of the source.  The
    two that are not literals are the parameters. *)
Definition setup_keywords (version long_description : string) : list (string * value) :=
  [ ("name", VStr "Colorize");
    ("description", VStr "Palette manager for term apps.");
    ("author", VStr "Yann 'Meow' Bordenave");
    ("author_email", VStr "meow@meo.wf");
    ("version", VStr version);
    ("install_requires", VList ["PyYAML"; "jinja2"; "pillow"]);
    ("packages", VList []);
    ("license", VStr "zlib");
    ("long_description", VStr long_description);
    ("scripts", VList ["bin/colorize"]) ].

(** The dict that the callee receives. *)
Definition setup_kwargs (version long_description : string) : gmap string value :=
  list_to_map (setup_keywords version long_description).

(** [setup.py].  Arguments are evaluated left to right; only [version]
    and [long_description] have effects. *)
Definition main : py unit :=
  setup ← import_from "distutils.core" "setup";
  version ← (open_ "VERSION" ≫= read);
  long_description ← (open_ "README" ≫= read);
  call "setup" setup (setup_kwargs version long_description).

Definition trace (e : env) : list event := (run main e).1.
Definition outcome (e : env) : exn + unit := (run main e).2.

(** The keyword arguments of the calls made in a log. *)
Definition calls (tr : list event) : list (string * gmap string value) :=
  omap (λ ev, match ev with EvCall fn kw => Some (fn, kw) | _ => None end) tr.

(** The metadata handed to [setup], if the run gets that far. *)
Definition declared (e : env) : option (gmap string value) :=
  snd <$> head (calls (trace e)).

Definition readable (e : env) (path : string) : bool :=
  match cwd e !! path with
  | Some (Text _) => true
  | _ => false
  end.

(** The function that the name [setup] is bound to by line 3, if the
    package, the module and the attribute are there. *)
Definition imported (e : env) : option callable :=
  match first_missing (modules e) (packages_of "distutils.core") with
  | Some _ => None
  | None => modules e !! "distutils.core" ≫= λ attrs, attrs !! "setup"
  end.

(** The list given for a keyword ([[]] when the keyword is not given). *)
Definition strings_of (kw : gmap string value) (k : string) : list string :=
  match kw !! k with
  | Some (VList l) => l
  | _ => []
  end.

(** Last component of a path. *)
Fixpoint basename_from (acc p : string) : string :=
  match p with
  | EmptyString => acc
  | String c p' =>
      if Ascii.eqb c "/"%char then basename_from EmptyString p'
      else basename_from (acc +:+ String c EmptyString) p'
  end.

Definition basename (p : string) : string := basename_from EmptyString p.

End Manifest.

Import Manifest.

(** ** The text of the manifest *)

Module Source.

Definition dq : string := String "034"%char EmptyString.

(** [setup.py], one string per line. *)
Definition setup_py : list string :=
  [ "#!/usr/bin/env python3";
    EmptyString;
    "from distutils.core import setup";
    EmptyString;
    "setup(";
    "    name='Colorize',";
    "    description='Palette manager for term apps.',";
    "    author=" +:+ dq +:+ "Yann 'Meow' Bordenave" +:+ dq +:+ ",";
    "    author_email='meow@meo.wf',";
    "    version=open('VERSION').read(),";
    "    install_requires=['PyYAML', 'jinja2', 'pillow'],";
    "    packages=[],";
    "    license='zlib',";
    "    long_description=open('README').read(),";
    "    scripts=[";
    "        'bin/colorize',";
    "    ],";
    ")" ].

(** The source files of the repository, by name. *)
Definition repository : list (string * list string) := [ ("setup.py", setup_py) ].

Definition total_lines (repo : list (string * list string)) : nat :=
  sum_list (length ∘ snd <$> repo).

Definition is_quote (c : ascii) : bool := Ascii.eqb c "'"%char || Ascii.eqb c "034"%char.
Definition is_opening (c : ascii) : bool :=
  Ascii.eqb c "("%char || Ascii.eqb c "["%char || Ascii.eqb c "{"%char.
Definition is_closing (c : ascii) : bool :=
  Ascii.eqb c ")"%char || Ascii.eqb c "]"%char || Ascii.eqb c "}"%char.

(** Bracket depth at the end of a line that starts at depth [d]; brackets
    inside string literals and after [#] do not count. *)
Fixpoint depth_after (quote : option ascii) (d : nat) (l : string) : nat :=
  match l with
  | EmptyString => d
  | String c l' =>
      match quote with
      | Some q => depth_after (if Ascii.eqb c q then None else Some q) d l'
      | None =>
          if is_quote c then depth_after (Some c) d l'
          else if Ascii.eqb c "#"%char then d
          else if is_opening c then depth_after None (S d) l'
          else if is_closing c then depth_after None (pred d) l'
          else depth_after None d l'
      end
  end.

Fixpoint lstrip (l : string) : string :=
  match l with
  | String " "%char l' => lstrip l'
  | _ => l
  end.

Inductive kind : Type := Blank | Comment | Code.

#[global] Instance kind_eq_dec : EqDecision kind.
Proof. solve_decision. Defined.

Definition line_kind (l : string) : kind :=
  match lstrip l with
  | EmptyString => Blank
  | String "#"%char _ => Comment
  | _ => Code
  end.

(** Logical lines: a statement runs until its brackets are closed; blank
    lines and comment lines between statements belong to none. *)
Fixpoint statements_from (cur : list string) (d : nat) (ls : list string)
  : list (list string) :=
  match ls with
  | [] => match cur with [] => [] | _ => [cur] end
  | l :: ls' =>
      match d, line_kind l with
      | 0, Blank | 0, Comment => statements_from [] 0 ls'
      | _, _ =>
          match depth_after None d l with
          | 0 => (cur ++ [l])%list :: statements_from [] 0 ls'
          | S d' => statements_from (cur ++ [l])%list (S d') ls'
          end
      end
  end.

Definition statements (ls : list string) : list (list string) :=
  statements_from [] 0 ls.

Definition is_ident_char (c : ascii) : bool :=
  let n := nat_of_ascii c in
  ((97 <=? n)%nat && (n <=? 122)%nat) || ((65 <=? n)%nat && (n <=? 90)%nat)
  || ((48 <=? n)%nat && (n <=? 57)%nat) || (n =? 95)%nat.

Fixpoint ident_then_eq (acc l : string) : option string :=
  match l with
  | EmptyString => None
  | String c l' =>
      if is_ident_char c then ident_then_eq (acc +:+ String c EmptyString) l'
      else if Ascii.eqb c "="%char then
        match acc with EmptyString => None | _ => Some acc end
      else None
  end.

(** The keyword that a line of a call starts with, as in [name=...]. *)
Definition keyword_of (l : string) : option string := ident_then_eq EmptyString (lstrip l).

End Source.

Import Source.

(** ** Sample environments *)

Definition ok_setup : callable := λ _ _ _, inr tt.

(** A callee that raises. *)
Definition failing_setup : callable := λ _ _ _, inl (SystemExit "no commands supplied").

(** A callee that, like an installer, wants a command on the command line
    and every declared script in the working directory. *)
Definition strict_setup : callable := λ kw files args,
  match args with
  | _ :: _ :: _ =>
      if forallb (λ s, bool_decide (is_Some (files !! s))) (strings_of kw "scripts")
      then inr tt
      else inl (SystemExit "missing script")
  | _ => inl (SystemExit "no commands supplied")
  end.

Definition nl : string := String "010"%char EmptyString.
Definition cr : string := String "013"%char EmptyString.

Definition install : list string := ["setup.py"; "install"].

(** The package [distutils] with its module [core], whose [setup] is [f]. *)
Definition distutils_with (f : callable) : gmap string (gmap string callable) :=
  {["distutils" := ∅; "distutils.core" := {["setup" := f]}]}.

Definition distutils_only : gmap string (gmap string callable) := distutils_with ok_setup.

Definition sample_env : env :=
  Env (<["VERSION" := Text "0.1"]> (<["README" := Text "Colorize"]> ∅)) install
      distutils_only.

(** [VERSION] ends in a newline and a blank. *)
Definition newline_env : env :=
  Env (<["VERSION" := Text ("0.1" +:+ nl +:+ " ")]> (<["README" := Text "Colorize"]> ∅))
      install distutils_only.


(** No [README]. *)
Definition no_readme_env : env :=
  Env (<["VERSION" := Text "0.1"]> ∅) install distutils_only.

(** No [VERSION]. *)
Definition no_version_env : env :=
  Env (<["README" := Text "Colorize"]> ∅) install distutils_only.

Definition exit_env : env :=
  Env (<["VERSION" := Text "0.1"]> (<["README" := Text "Colorize"]> ∅)) install
      (distutils_with failing_setup).

(** No package [distutils]; [setuptools] does not stand in for it. *)
Definition no_distutils_env : env :=
  Env (<["VERSION" := Text "0.1"]> (<["README" := Text "Colorize"]> ∅)) install
      {["setuptools" := {["setup" := ok_setup]}]}.

(** A package [distutils] without its module [core]. *)
Definition no_core_env : env :=
  Env (<["VERSION" := Text "0.1"]> (<["README" := Text "Colorize"]> ∅)) install
      {["distutils" := ∅]}.

(** A module [distutils.core] without [setup]. *)
Definition no_setup_env : env :=
  Env (<["VERSION" := Text "0.1"]> (<["README" := Text "Colorize"]> ∅)) install
      {["distutils" := ∅; "distutils.core" := {["Extension" := ok_setup]}]}.

(** [VERSION] cannot be opened. *)
Definition locked_version_env : env :=
  Env (<["VERSION" := NoPermission]> (<["README" := Text "Colorize"]> ∅)) install
      distutils_only.

(** [README] opens but does not decode. *)
Definition binary_readme_env : env :=
  Env (<["VERSION" := Text "0.1"]> (<["README" := Undecodable]> ∅)) install
      distutils_only.

(** The two files beside the declared script, and a callee that wants it. *)
Definition with_script_env : env :=
  Env (<["VERSION" := Text "0.1"]> (<["README" := Text "Colorize"]>
        (<["bin/colorize" := Text "#!/usr/bin/env python3"]> ∅)))
      install (distutils_with strict_setup).

(** The same without the script, as in the repository. *)
Definition no_script_env : env :=
  Env (<["VERSION" := Text "0.1"]> (<["README" := Text "Colorize"]> ∅))
      install (distutils_with strict_setup).

(** ** Notions used to state properties of runs *)

(** The text of a file of the working directory (empty when it has none). *)
Definition text_of (e : env) (path : string) : string :=
  match cwd e !! path with
  | Some (Text s) => s
  | _ => EmptyString
  end.

(** The log of a run that gets to the call. *)
Definition full_log (v r : string) : list event :=
  [EvImport "distutils.core" "setup"; EvOpen "VERSION"; EvRead "VERSION";
   EvOpen "README"; EvRead "README"; EvCall "setup" (setup_kwargs v r)].

(** What [open(path).read()] raises on an entry, if it raises. *)
Definition failure_of (path : string) (ent : option entry) : option exn :=
  match ent with
  | None => Some (FileNotFoundError path)
  | Some NoPermission => Some (PermissionError path)
  | Some Directory => Some (IsADirectoryError path)
  | Some Undecodable => Some (UnicodeDecodeError path)
  | Some (Text _) => None
  end.

(** The events that [open(path).read()] logs on an entry: the file is
    opened when permissions allow, and read when its bytes decode. *)
Definition events_of (path : string) (ent : option entry) : list event :=
  match ent with
  | Some (Text _) => [EvOpen path; EvRead path]
  | Some Undecodable => [EvOpen path]
  | _ => []
  end.

(** What line 3 raises when it cannot bind [setup]. *)
Definition import_error (e : env) : exn :=
  match modules e !! "distutils" with
  | None => ModuleNotFoundError "distutils"
  | Some _ =>
      match modules e !! "distutils.core" with
      | None => ModuleNotFoundError "distutils.core"
      | Some _ => ImportError "distutils.core" "setup"
      end
  end.


Example sample_run :
  run main sample_env =
    ([EvImport "distutils.core" "setup"; EvOpen "VERSION"; EvRead "VERSION";
      EvOpen "README"; EvRead "README"; EvCall "setup" (setup_kwargs "0.1" "Colorize")],
     inr tt).
Proof. vm_compute. reflexivity. Qed.

Example no_readme_run :
  run main no_readme_env =
    ([EvImport "distutils.core" "setup"; EvOpen "VERSION"; EvRead "VERSION"],
     inl (FileNotFoundError "README")).
Proof. vm_compute. reflexivity. Qed.

Example no_version_run :
  run main no_version_env =
    ([EvImport "distutils.core" "setup"], inl (FileNotFoundError "VERSION")).
Proof. vm_compute. reflexivity. Qed.

Example no_script_run :
  outcome no_script_env = inl (SystemExit "missing script")
  ∧ outcome with_script_env = inr tt.
Proof. split; vm_compute; reflexivity. Qed.

Example crlf_text : universal_newlines ("0.1" +:+ cr +:+ nl) = "0.1" +:+ nl.
Proof. reflexivity. Qed.

Example statements_setup_py :
  statements setup_py = [ take 1 (drop 2 setup_py); drop 4 setup_py ].
Proof. vm_compute. reflexivity. Qed.

Example keywords_setup_py v r :
  omap keyword_of setup_py = (setup_keywords v r).*1.
Proof. vm_compute. reflexivity. Qed.

Example basename_colorize : basename "bin/colorize" = "colorize".
Proof. reflexivity. Qed.

(** ** Runs of the manifest *)

Ltac unfold_body :=
  unfold call, invoke, read, log, raise, open_, mbind, mret, py_bind, py_ret in *.

Lemma packages_of_distutils_core : packages_of "distutils.core" = ["distutils"].
Proof. reflexivity. Qed.

(** Line 3, when it binds [setup]. *)
Lemma import_ok e f tr :
  imported e = Some f →
  import_from "distutils.core" "setup" e tr =
    ((tr ++ [EvImport "distutils.core" "setup"])%list, inr f).
Proof.
  unfold imported, import_from. rewrite packages_of_distutils_core.
  cbn [first_missing].
  destruct (modules e !! "distutils") as [pkg|]; [|done].
  destruct (modules e !! "distutils.core") as [attrs|]; simpl; [|done].
  by intros ->.
Qed.

(** Line 3, when it does not. *)
Lemma import_fails e tr :
  imported e = None →
  import_from "distutils.core" "setup" e tr = (tr, inl (import_error e)).
Proof.
  unfold imported, import_from, import_error. rewrite packages_of_distutils_core.
  cbn [first_missing].
  destruct (modules e !! "distutils") as [pkg|]; [|done].
  destruct (modules e !! "distutils.core") as [attrs|]; simpl; [|done].
  by intros ->.
Qed.

Lemma run_import_fails e :
  imported e = None → run main e = ([], inl (import_error e)).
Proof.
  intros Hi. unfold run, main, mbind, py_bind.
  by rewrite (import_fails e [] Hi).
Qed.

(** The run when line 3 binds [setup] and both files are text files. *)
Lemma run_main_ok e f v r :
  imported e = Some f →
  cwd e !! "VERSION" = Some (Text v) →
  cwd e !! "README" = Some (Text r) →
  run main e =
    ([EvImport "distutils.core" "setup"; EvOpen "VERSION"; EvRead "VERSION";
      EvOpen "README"; EvRead "README"; EvCall "setup" (setup_kwargs v r)],
     f (setup_kwargs v r) (cwd e) (argv e)).
Proof.
  intros Hi Hv Hr. unfold run, main, mbind, py_bind.
  rewrite (import_ok e f [] Hi). unfold_body.
  rewrite Hv. simpl. rewrite Hr. reflexivity.
Qed.

(** The run when [VERSION] cannot be read. *)
Lemma run_version_fails e f x :
  imported e = Some f →
  failure_of "VERSION" (cwd e !! "VERSION") = Some x →
  run main e =
    (EvImport "distutils.core" "setup" :: events_of "VERSION" (cwd e !! "VERSION"),
     inl x).
Proof.
  intros Hi Hx. unfold run, main, mbind, py_bind.
  rewrite (import_ok e f [] Hi). unfold_body.
  destruct (cwd e !! "VERSION") as [[v| | |]|]; simpl in *; by inversion Hx.
Qed.

(** The run when [VERSION] is read and [README] cannot be. *)
Lemma run_readme_fails e f v x :
  imported e = Some f →
  cwd e !! "VERSION" = Some (Text v) →
  failure_of "README" (cwd e !! "README") = Some x →
  run main e =
    ([EvImport "distutils.core" "setup"; EvOpen "VERSION"; EvRead "VERSION"]
       ++ events_of "README" (cwd e !! "README"),
     inl x)%list.
Proof.
  intros Hi Hv Hx. unfold run, main, mbind, py_bind.
  rewrite (import_ok e f [] Hi). unfold_body.
  rewrite Hv. simpl.
  destruct (cwd e !! "README") as [[r| | |]|]; simpl in *; by inversion Hx.
Qed.

Lemma failure_of_unreadable path (ent : option entry) :
  match ent with Some (Text _) => False | _ => True end →
  ∃ x, failure_of path ent = Some x.
Proof. destruct ent as [[s| | |]|]; simpl; by eauto. Qed.

Lemma calls_events_of path ent : calls (events_of path ent) = [].
Proof. by destruct ent as [[s| | |]|]. Qed.

(** Every other run raises before the call: nothing is called, and the
    cause is line 3 or one of the two files. *)
Lemma run_main_raises e :
  imported e = None ∨ readable e "VERSION" = false ∨ readable e "README" = false →
  ∃ tr x, run main e = (tr, inl x) ∧ calls tr = [].
Proof.
  intros H. destruct (imported e) as [f|] eqn:Hi.
  - unfold readable in H.
    destruct (cwd e !! "VERSION") as [entv|] eqn:Hv; [destruct entv as [v| | |]|].
    2-5: destruct (failure_of_unreadable "VERSION" (cwd e !! "VERSION")) as [x Hx];
      [by rewrite Hv|];
      eexists _, x; split; [by apply (run_version_fails e f)|];
      rewrite Hv; reflexivity.
    destruct (failure_of_unreadable "README" (cwd e !! "README")) as [x Hx].
    { destruct (cwd e !! "README") as [[r| | |]|]; try done.
      by destruct H as [?|[?|?]]. }
    eexists _, x. split; [by apply (run_readme_fails e f v)|].
    by destruct (cwd e !! "README") as [[r| | |]|].
  - eexists [], _. split; [by apply run_import_fails|done].
Qed.

Lemma run_main_cases e :
  (∃ f v r, imported e = Some f ∧ cwd e !! "VERSION" = Some (Text v)
            ∧ cwd e !! "README" = Some (Text r))
  ∨ (imported e = None ∨ readable e "VERSION" = false ∨ readable e "README" = false).
Proof.
  unfold readable.
  destruct (imported e) as [f|]; [|by auto].
  destruct (cwd e !! "VERSION") as [[v| | |]|]; [|by auto..].
  destruct (cwd e !! "README") as [[r| | |]|]; [|by auto 6..].
  left. by exists f, v, r.
Qed.

(** A call in the log is the call of line 5, made after both reads. *)
Lemma call_inv e fn kw :
  EvCall fn kw ∈ trace e →
  ∃ f v r, imported e = Some f ∧ cwd e !! "VERSION" = Some (Text v)
           ∧ cwd e !! "README" = Some (Text r)
           ∧ fn = "setup" ∧ kw = setup_kwargs v r.
Proof.
  intros Hin. destruct (run_main_cases e) as [(f & v & r & Hi & Hv & Hr)|Hbad].
  - unfold trace in Hin. rewrite (run_main_ok e f v r Hi Hv Hr) in Hin.
    simpl in Hin. exists f, v, r.
    repeat (apply elem_of_cons in Hin as [Hin|Hin]; [try discriminate|]).
    + by inversion Hin.
    + by apply elem_of_nil in Hin.
  - destruct (run_main_raises e Hbad) as (tr & x & Hrun & Hnone).
    unfold trace in Hin. rewrite Hrun in Hin. simpl in Hin.
    assert ((fn, kw) ∈ calls tr) as Hc.
    { unfold calls. apply list_elem_of_omap. by exists (EvCall fn kw). }
    rewrite Hnone in Hc. by apply elem_of_nil in Hc.
Qed.

(** What [setup] receives is [setup_kwargs] at the texts of the two files. *)
Lemma declared_inv e kw :
  declared e = Some kw →
  ∃ f v r, imported e = Some f ∧ cwd e !! "VERSION" = Some (Text v)
           ∧ cwd e !! "README" = Some (Text r) ∧ kw = setup_kwargs v r.
Proof.
  intros Hd. destruct (run_main_cases e) as [(f & v & r & Hi & Hv & Hr)|Hbad].
  - exists f, v, r. unfold declared, trace in Hd.
    rewrite (run_main_ok e f v r Hi Hv Hr) in Hd. simpl in Hd.
    by inversion Hd.
  - destruct (run_main_raises e Hbad) as (tr & x & Hrun & Hnone).
    unfold declared, trace in Hd. rewrite Hrun in Hd. simpl in Hd.
    rewrite Hnone in Hd. discriminate.
Qed.


(** The ten keywords of the call, and no other. *)
Lemma setup_kwargs_dom v r :
  dom (setup_kwargs v r) =
    list_to_set ["name"; "description"; "author"; "author_email"; "version";
                 "install_requires"; "packages"; "license"; "long_description";
                 "scripts"].
Proof. vm_compute. reflexivity. Qed.

Lemma setup_keywords_NoDup v r : NoDup (setup_keywords v r).*1.
Proof. compute_done. Qed.

(** The keywords of the model are those written in the text. *)
Lemma setup_keywords_in_source v r :
  omap keyword_of setup_py = (setup_keywords v r).*1.
Proof. vm_compute. reflexivity. Qed.

(** Of the modules, only [distutils] and [distutils.core] matter to the
    run. *)
Lemma run_main_ext e e' :
  cwd e = cwd e' →
  argv e = argv e' →
  modules e !! "distutils" = modules e' !! "distutils" →
  modules e !! "distutils.core" = modules e' !! "distutils.core" →
  run main e = run main e'.
Proof.
  destruct e as [c a m], e' as [c' a' m']. cbn [cwd argv modules].
  intros <- <- Hp Hm.
  unfold run, main, import_from. rewrite packages_of_distutils_core.
  unfold_body. cbn [first_missing cwd argv modules]. rewrite Hp, Hm.
  destruct (m' !! "distutils") as [pkg|]; [|done].
  destruct (m' !! "distutils.core") as [attrs|]; [|done].
  destruct (attrs !! "setup") as [f|]; [|done].
  destruct (c !! "VERSION") as [[v| | |]|]; [|done..].
  by destruct (c !! "README") as [[r| | |]|].
Qed.

(** The log of the manifest, case by case. *)
Lemma trace_cases e :
  trace e =
    match imported e with
    | None => []
    | Some _ =>
        EvImport "distutils.core" "setup" ::
        match cwd e !! "VERSION" with
        | Some (Text v) =>
            [EvOpen "VERSION"; EvRead "VERSION"] ++
            match cwd e !! "README" with
            | Some (Text r) =>
                [EvOpen "README"; EvRead "README"; EvCall "setup" (setup_kwargs v r)]
            | ent => events_of "README" ent
            end
        | ent => events_of "VERSION" ent
        end
    end%list.
Proof.
  unfold trace. destruct (imported e) as [f|] eqn:Hi.
  - destruct (cwd e !! "VERSION") as [entv|] eqn:Hv; [destruct entv as [v| | |]|].
    2-5: destruct (failure_of_unreadable "VERSION" (cwd e !! "VERSION")) as [x Hx];
      [by rewrite Hv|];
      rewrite (run_version_fails e f x Hi Hx); by rewrite Hv.
    destruct (cwd e !! "README") as [entr|] eqn:Hr; [destruct entr as [r| | |]|].
    2-5: destruct (failure_of_unreadable "README" (cwd e !! "README")) as [x Hx];
      [by rewrite Hr|];
      rewrite (run_readme_fails e f v x Hi Hv Hx); by rewrite Hr.
    by rewrite (run_main_ok e f v r Hi Hv Hr).
  - by rewrite (run_import_fails e Hi).
Qed.

Lemma outcome_raises e :
  imported e = None ∨ readable e "VERSION" = false ∨ readable e "README" = false →
  (∃ x, outcome e = inl x) ∧ declared e = None ∧ ∀ fn kw, EvCall fn kw ∉ trace e.
Proof.
  intros Hbad. destruct (run_main_raises e Hbad) as (tr & x & Hrun & Hnone).
  split; [|split].
  - exists x. unfold outcome. by rewrite Hrun.
  - unfold declared, trace. rewrite Hrun. simpl. by rewrite Hnone.
  - intros fn kw Hin. apply call_inv in Hin as (f & v & r & Hi & Hv & Hr & _).
    unfold readable in Hbad. rewrite Hi, Hv, Hr in Hbad.
    by destruct Hbad as [?|[?|?]].
Qed.

Lemma outcome_no_version e :
  imported e ≠ None → cwd e !! "VERSION" = None →
  outcome e = inl (FileNotFoundError "VERSION").
Proof.
  intros Hi Hv. destruct (imported e) as [f|] eqn:Hf; [|done].
  unfold outcome.
  rewrite (run_version_fails e f (FileNotFoundError "VERSION") Hf); [done|].
  by rewrite Hv.
Qed.

Lemma outcome_no_readme e :
  imported e ≠ None → readable e "VERSION" = true → cwd e !! "README" = None →
  outcome e = inl (FileNotFoundError "README").
Proof.
  intros Hi Hv Hr. destruct (imported e) as [f|] eqn:Hf; [|done].
  unfold readable in Hv.
  destruct (cwd e !! "VERSION") as [[v| | |]|] eqn:Hv'; try discriminate.
  unfold outcome.
  rewrite (run_readme_fails e f v (FileNotFoundError "README") Hf Hv'); [done|].
  by rewrite Hr.
Qed.


(** ** The claims *)




(** C2.  The version given to [setup] is what reading the file [VERSION]
    of the working directory returns: the run reads that file, and two runs
    whose [VERSION] files differ declare different versions, so the version
    is not a literal of the manifest. *)
Theorem version_read_from_sidecar_file (e : env) (kw : gmap string value) :
  declared e = Some kw →
  ∃ v, cwd e !! "VERSION" = Some (Text v)
       ∧ kw !! "version" = Some (VStr v)
       ∧ EvRead "VERSION" ∈ trace e
       ∧ ∀ e' kw', declared e' = Some kw' →
           cwd e' !! "VERSION" ≠ cwd e !! "VERSION" →
           kw' !! "version" ≠ kw !! "version".
Proof.
  intros Hd. destruct (declared_inv e kw Hd) as (f & v & r & Hi & Hv & Hr & ->).
  exists v. split; [done|]. split; [vm_compute; reflexivity|]. split.
  - unfold trace. rewrite (run_main_ok e f v r Hi Hv Hr). simpl.
    apply list_elem_of_further, list_elem_of_further, list_elem_of_here.
  - intros e' kw' Hd' Hne.
    destruct (declared_inv e' kw' Hd') as (f' & v' & r' & _ & Hv' & _ & ->).
    rewrite Hv, Hv' in Hne. intros Heq. apply Hne.
    change (Some (VStr v') = Some (VStr v)) in Heq. congruence.
Qed.

Lemma version_read_from_sidecar_file_witness :
  declared sample_env = Some (setup_kwargs "0.1" "Colorize")
  ∧ ∃ v, cwd sample_env !! "VERSION" = Some (Text v)
         ∧ setup_kwargs "0.1" "Colorize" !! "version" = Some (VStr v).
Proof.
  assert (declared sample_env = Some (setup_kwargs "0.1" "Colorize")) as Hd
    by (vm_compute; reflexivity).
  split; [exact Hd|].
  destruct (version_read_from_sidecar_file sample_env _ Hd) as (v & Hv & Hk & _).
  exists v. split; [exact Hv|exact Hk].
Defined.

(** C3.  The call declares three runtime dependencies, PyYAML, jinja2 and
    pillow, under [install_requires]; the keywords of the call are the ten
    listed, so no other keyword declares a dependency. *)
Theorem three_runtime_dependencies (e : env) (kw : gmap string value) :
  declared e = Some kw →
  kw !! "install_requires" = Some (VList ["PyYAML"; "jinja2"; "pillow"])
  ∧ length (strings_of kw "install_requires") = 3
  ∧ dom kw = list_to_set ["name"; "description"; "author"; "author_email"; "version";
                          "install_requires"; "packages"; "license";
                          "long_description"; "scripts"].
Proof.
  intros Hd. destruct (declared_inv e kw Hd) as (f & v & r & _ & _ & _ & ->).
  split; [|split]; [vm_compute; reflexivity..|apply setup_kwargs_dom].
Qed.

Lemma three_runtime_dependencies_witness :
  declared sample_env = Some (setup_kwargs "0.1" "Colorize")
  ∧ strings_of (setup_kwargs "0.1" "Colorize") "install_requires"
    = ["PyYAML"; "jinja2"; "pillow"].
Proof.
  assert (declared sample_env = Some (setup_kwargs "0.1" "Colorize")) as Hd
    by (vm_compute; reflexivity).
  split; [exact Hd|].
  unfold strings_of.
  by rewrite (proj1 (three_runtime_dependencies sample_env _ Hd)).
Defined.

(** C5.  Both files are opened and read before [setup] is called: a log
    that has a call is the import, the two open/read pairs and then the
    call.  When [VERSION] or [README] is missing from the working directory
    or cannot be read, the run raises, and [setup] is not called; for a
    missing file the exception is [FileNotFoundError]. *)
Theorem files_read_before_setup (e : env) :
  (∀ fn kw, EvCall fn kw ∈ trace e →
     ∃ v r, trace e =
              [EvImport "distutils.core" "setup"; EvOpen "VERSION"; EvRead "VERSION";
               EvOpen "README"; EvRead "README"; EvCall "setup" (setup_kwargs v r)]
            ∧ fn = "setup" ∧ kw = setup_kwargs v r)
  ∧ (readable e "VERSION" = false ∨ readable e "README" = false →
       (∃ x, outcome e = inl x) ∧ declared e = None
       ∧ ∀ fn kw, EvCall fn kw ∉ trace e)
  ∧ (imported e ≠ None → cwd e !! "VERSION" = None →
       outcome e = inl (FileNotFoundError "VERSION"))
  ∧ (imported e ≠ None → readable e "VERSION" = true → cwd e !! "README" = None →
       outcome e = inl (FileNotFoundError "README")).
Proof.
  split; [|split; [|split]].
  - intros fn kw Hin.
    destruct (call_inv e fn kw Hin) as (f & v & r & Hi & Hv & Hr & -> & ->).
    exists v, r. unfold trace. by rewrite (run_main_ok e f v r Hi Hv Hr).
  - intros Hbad. apply outcome_raises. tauto.
  - apply outcome_no_version.
  - apply outcome_no_readme.
Qed.

Lemma files_read_before_setup_witness :
  (EvCall "setup" (setup_kwargs "0.1" "Colorize") ∈ trace sample_env
   ∧ ∃ v r, trace sample_env =
              [EvImport "distutils.core" "setup"; EvOpen "VERSION"; EvRead "VERSION";
               EvOpen "README"; EvRead "README"; EvCall "setup" (setup_kwargs v r)])
  ∧ (readable no_readme_env "README" = false ∧ declared no_readme_env = None)
  ∧ (cwd no_version_env !! "VERSION" = None
     ∧ outcome no_version_env = inl (FileNotFoundError "VERSION"))
  ∧ (cwd no_readme_env !! "README" = None
     ∧ outcome no_readme_env = inl (FileNotFoundError "README")).
Proof.
  assert (EvCall "setup" (setup_kwargs "0.1" "Colorize") ∈ trace sample_env) as Hin.
  { unfold trace. rewrite sample_run. simpl. do 5 apply list_elem_of_further.
    apply list_elem_of_here. }
  assert (readable no_readme_env "README" = false) as Hr by reflexivity.
  assert (cwd no_version_env !! "VERSION" = None) as Hv0 by reflexivity.
  assert (cwd no_readme_env !! "README" = None) as Hr0 by reflexivity.
  split; [|split; [|split]].
  - split; [exact Hin|].
    destruct (proj1 (files_read_before_setup sample_env) _ _ Hin) as (v & r & Ht & _).
    by exists v, r.
  - split; [exact Hr|].
    exact (proj1 (proj2 (proj1 (proj2 (files_read_before_setup no_readme_env))
                           (or_intror Hr)))).
  - split; [exact Hv0|].
    apply (proj1 (proj2 (proj2 (files_read_before_setup no_version_env))));
      [discriminate|exact Hv0].
  - split; [exact Hr0|].
    apply (proj2 (proj2 (proj2 (files_read_before_setup no_readme_env))));
      [discriminate|reflexivity|exact Hr0].
Defined.

(** C6.  The licence given to [setup] is [zlib]. *)
Theorem license_is_zlib (e : env) (kw : gmap string value) :
  declared e = Some kw → kw !! "license" = Some (VStr "zlib").
Proof.
  intros Hd. destruct (declared_inv e kw Hd) as (f & v & r & _ & _ & _ & ->).
  vm_compute; reflexivity.
Qed.

Lemma license_is_zlib_witness :
  declared sample_env = Some (setup_kwargs "0.1" "Colorize")
  ∧ setup_kwargs "0.1" "Colorize" !! "license" = Some (VStr "zlib").
Proof.
  assert (declared sample_env = Some (setup_kwargs "0.1" "Colorize")) as Hd
    by (vm_compute; reflexivity).
  split; [exact Hd|exact (license_is_zlib sample_env _ Hd)].
Defined.

(** C7.  The project is named [Colorize] and its description is
    [Palette manager for term apps.] *)
Theorem name_and_description (e : env) (kw : gmap string value) :
  declared e = Some kw →
  kw !! "name" = Some (VStr "Colorize")
  ∧ kw !! "description" = Some (VStr "Palette manager for term apps.").
Proof.
  intros Hd. destruct (declared_inv e kw Hd) as (f & v & r & _ & _ & _ & ->).
  split; vm_compute; reflexivity.
Qed.

Lemma name_and_description_witness :
  declared sample_env = Some (setup_kwargs "0.1" "Colorize")
  ∧ setup_kwargs "0.1" "Colorize" !! "name" = Some (VStr "Colorize").
Proof.
  assert (declared sample_env = Some (setup_kwargs "0.1" "Colorize")) as Hd
    by (vm_compute; reflexivity).
  split; [exact Hd|exact (proj1 (name_and_description sample_env _ Hd))].
Defined.

(** C8.  The repository is the one file [setup.py], of 18 lines: the
    interpreter line, two blank lines, the import of [setup] and the 14
    lines of the call [setup(...)], whose keywords are those of the model.
    There is no other statement. *)
Theorem repository_is_18_lines_of_manifest :
  repository.*1 = ["setup.py"]
  ∧ total_lines repository = 18
  ∧ ∃ call_lines,
      setup_py = (["#!/usr/bin/env python3"; EmptyString;
                   "from distutils.core import setup"; EmptyString] ++ call_lines)%list
      ∧ length call_lines = 14
      ∧ head call_lines = Some "setup(" ∧ last call_lines = Some ")"
      ∧ statements setup_py = [["from distutils.core import setup"]; call_lines]
      ∧ ∀ v r, omap keyword_of call_lines = (setup_keywords v r).*1.
Proof.
  split; [reflexivity|]. split; [reflexivity|].
  exists (drop 4 setup_py).
  repeat split; vm_compute; reflexivity.
Qed.

(** C9.  The list given for [packages] is empty and no keyword other than
    the ten of the call is given, so the call names no package and no
    module to install; the repository holds no file besides [setup.py],
    and that file has only the import and the call. *)
Theorem no_packages_installed (e : env) (kw : gmap string value) :
  declared e = Some kw →
  kw !! "packages" = Some (VList [])
  ∧ kw !! "py_modules" = None
  ∧ kw !! "ext_modules" = None
  ∧ dom kw = list_to_set ["name"; "description"; "author"; "author_email"; "version";
                          "install_requires"; "packages"; "license";
                          "long_description"; "scripts"]
  ∧ repository.*1 = ["setup.py"]
  ∧ length (statements setup_py) = 2.
Proof.
  intros Hd. destruct (declared_inv e kw Hd) as (f & v & r & _ & _ & _ & ->).
  split; [vm_compute; reflexivity|]. split; [vm_compute; reflexivity|].
  split; [vm_compute; reflexivity|]. split; [apply setup_kwargs_dom|].
  split; vm_compute; reflexivity.
Qed.

Lemma no_packages_installed_witness :
  declared sample_env = Some (setup_kwargs "0.1" "Colorize")
  ∧ setup_kwargs "0.1" "Colorize" !! "packages" = Some (VList []).
Proof.
  assert (declared sample_env = Some (setup_kwargs "0.1" "Colorize")) as Hd
    by (vm_compute; reflexivity).
  split; [exact Hd|exact (proj1 (no_packages_installed sample_env _ Hd))].
Defined.




(** ** Further properties of the run *)

(** X1.  When line 3 cannot bind [setup], the run raises at once, before
    any file is opened: [ModuleNotFoundError] naming [distutils] when there
    is no such package, [ModuleNotFoundError] naming [distutils.core] when
    the package has no such module, [ImportError] when the module has no
    [setup]. *)
Theorem import_failure_raises_first (e : env) :
  imported e = None →
  run main e =
    ([], inl (match modules e !! "distutils" with
              | None => ModuleNotFoundError "distutils"
              | Some _ =>
                  match modules e !! "distutils.core" with
                  | None => ModuleNotFoundError "distutils.core"
                  | Some _ => ImportError "distutils.core" "setup"
                  end
              end)).
Proof. intros Hi. by rewrite (run_import_fails e Hi). Qed.

Lemma import_failure_raises_first_witness :
  run main no_distutils_env = ([], inl (ModuleNotFoundError "distutils"))
  ∧ run main no_core_env = ([], inl (ModuleNotFoundError "distutils.core"))
  ∧ run main no_setup_env = ([], inl (ImportError "distutils.core" "setup")).
Proof.
  split; [|split].
  - exact (import_failure_raises_first no_distutils_env eq_refl).
  - exact (import_failure_raises_first no_core_env eq_refl).
  - exact (import_failure_raises_first no_setup_env eq_refl).
Defined.

(** X2.  When [VERSION] is missing, is a directory, may not be opened or
    does not decode, the run raises the exception of that case right after
    the import; [README] is not opened and nothing is called. *)
Theorem version_failure_stops_run (e : env) (x : exn) :
  imported e ≠ None →
  failure_of "VERSION" (cwd e !! "VERSION") = Some x →
  run main e =
    (EvImport "distutils.core" "setup" :: events_of "VERSION" (cwd e !! "VERSION"),
     inl x)
  ∧ (EvOpen "README" ∉ trace e)
  ∧ calls (trace e) = [].
Proof.
  intros Hi Hx. destruct (imported e) as [f|] eqn:Hf; [clear Hi|done].
  pose proof (run_version_fails e f x Hf Hx) as Hrun.
  split; [exact Hrun|]. unfold trace. rewrite Hrun. simpl.
  destruct (cwd e !! "VERSION") as [[v| | |]|]; simpl in *; try discriminate;
    (split; [|reflexivity]); intros Hin;
    repeat (apply elem_of_cons in Hin as [Hin|Hin]; [discriminate|]);
    by apply elem_of_nil in Hin.
Qed.

Lemma version_failure_stops_run_witness :
  run main locked_version_env =
    ([EvImport "distutils.core" "setup"], inl (PermissionError "VERSION"))
  ∧ run main no_version_env =
    ([EvImport "distutils.core" "setup"], inl (FileNotFoundError "VERSION")).
Proof.
  split.
  - refine (proj1 (version_failure_stops_run locked_version_env _ _ eq_refl)).
    discriminate.
  - refine (proj1 (version_failure_stops_run no_version_env _ _ eq_refl)).
    discriminate.
Defined.

(** X3.  When [VERSION] is a text file and [README] is missing, is a
    directory, may not be opened or does not decode, the run raises the
    exception of that case after [VERSION] has been read; nothing is
    called. *)
Theorem readme_failure_after_version (e : env) (v : string) (x : exn) :
  imported e ≠ None →
  cwd e !! "VERSION" = Some (Text v) →
  failure_of "README" (cwd e !! "README") = Some x →
  run main e =
    ([EvImport "distutils.core" "setup"; EvOpen "VERSION"; EvRead "VERSION"]
       ++ events_of "README" (cwd e !! "README"),
     inl x)%list
  ∧ calls (trace e) = [].
Proof.
  intros Hi Hv Hx. destruct (imported e) as [f|] eqn:Hf; [clear Hi|done].
  pose proof (run_readme_fails e f v x Hf Hv Hx) as Hrun.
  split; [exact Hrun|]. unfold trace. rewrite Hrun. simpl.
  by destruct (cwd e !! "README") as [[r| | |]|].
Qed.

Lemma readme_failure_after_version_witness :
  run main binary_readme_env =
    ([EvImport "distutils.core" "setup"; EvOpen "VERSION"; EvRead "VERSION";
      EvOpen "README"], inl (UnicodeDecodeError "README"))
  ∧ run main no_readme_env =
    ([EvImport "distutils.core" "setup"; EvOpen "VERSION"; EvRead "VERSION"],
     inl (FileNotFoundError "README")).
Proof.
  split.
  - refine (proj1 (readme_failure_after_version binary_readme_env "0.1" _ _ eq_refl eq_refl)).
    discriminate.
  - refine (proj1 (readme_failure_after_version no_readme_env "0.1" _ _ eq_refl eq_refl)).
    discriminate.
Defined.

(** X4.  The manifest handles no exception and makes one call: when the
    import and both reads succeed, the outcome of the run is the outcome
    of [setup] on the keyword arguments, in the working directory and with
    the command line of the run, whether it returns or raises. *)
Theorem setup_outcome_is_run_outcome (e : env) (f : callable) (v r : string) :
  imported e = Some f →
  cwd e !! "VERSION" = Some (Text v) →
  cwd e !! "README" = Some (Text r) →
  outcome e = f (setup_kwargs v r) (cwd e) (argv e)
  ∧ calls (trace e) = [("setup", setup_kwargs v r)].
Proof.
  intros Hi Hv Hr. unfold outcome, trace.
  by rewrite (run_main_ok e f v r Hi Hv Hr).
Qed.

Lemma setup_outcome_is_run_outcome_witness :
  outcome exit_env = inl (SystemExit "no commands supplied")
  ∧ outcome sample_env = inr tt
  ∧ outcome no_script_env = inl (SystemExit "missing script").
Proof.
  split; [|split].
  - exact (proj1 (setup_outcome_is_run_outcome exit_env failing_setup "0.1" "Colorize"
                    eq_refl eq_refl eq_refl)).
  - exact (proj1 (setup_outcome_is_run_outcome sample_env ok_setup "0.1" "Colorize"
                    eq_refl eq_refl eq_refl)).
  - exact (proj1 (setup_outcome_is_run_outcome no_script_env strict_setup "0.1" "Colorize"
                    eq_refl eq_refl eq_refl)).
Defined.

(** X5.  The statements of the manifest take effect in one order: in every
    environment the log of the manifest's own operations is an initial part
    of import, open and read of [VERSION], open and read of [README], call.
    So the manifest calls [setup] at most once, and itself opens no file
    other than [VERSION] and [README].  What [setup] opens while it runs is
    not an operation of the manifest and is not in this log. *)
Theorem effects_in_fixed_order (e : env) :
  trace e `prefix_of` full_log (text_of e "VERSION") (text_of e "README")
  ∧ (length (calls (trace e)) ≤ 1)%nat
  ∧ ∀ p, EvOpen p ∈ trace e → p = "VERSION" ∨ p = "README".
Proof.
  assert (trace e `prefix_of` full_log (text_of e "VERSION") (text_of e "README"))
    as Hpre.
  { rewrite trace_cases. unfold text_of, full_log.
    destruct (imported e) as [f|]; [|by eexists].
    destruct (cwd e !! "VERSION") as [[v| | |]|]; simpl; [|by eexists..].
    destruct (cwd e !! "README") as [[r| | |]|]; simpl; by eexists. }
  split; [exact Hpre|]. destruct Hpre as [k Hk]. split.
  - apply (f_equal (λ l, length (calls l))) in Hk. unfold calls in Hk.
    rewrite omap_app, length_app in Hk. simpl in Hk. unfold calls. lia.
  - intros p Hin.
    assert (EvOpen p ∈ full_log (text_of e "VERSION") (text_of e "README")) as Hfull.
    { rewrite Hk. apply elem_of_app. by left. }
    unfold full_log in Hfull.
    repeat (apply elem_of_cons in Hfull as [Hfull|Hfull];
            [try discriminate; try (inversion Hfull; tauto)|]).
    by apply elem_of_nil in Hfull.
Qed.

(** X6.  What the manifest does up to the call, and what it hands to
    [setup], depend on three things only: the entries [VERSION] and
    [README] of the working directory and whether line 3 can bind [setup].
    Other files, the command line and the function bound change neither the
    log of the manifest nor the keyword arguments.  The outcome is another
    matter: it is up to [setup], which sees the rest of the directory. *)
Theorem log_depends_on_two_files_and_import (e e' : env) :
  cwd e !! "VERSION" = cwd e' !! "VERSION" →
  cwd e !! "README" = cwd e' !! "README" →
  (is_Some (imported e) ↔ is_Some (imported e')) →
  trace e = trace e' ∧ declared e = declared e'.
Proof.
  intros Hv Hr Hi.
  assert (trace e = trace e') as Ht.
  { rewrite !trace_cases, Hv, Hr.
    destruct (imported e) as [f|], (imported e') as [f'|]; [done| | |done];
      exfalso; apply (is_Some_None (A:=callable)), Hi; by eexists. }
  split; [exact Ht|]. unfold declared. by rewrite Ht.
Qed.

Lemma log_depends_on_two_files_and_import_witness :
  cwd with_script_env !! "bin/colorize" ≠ cwd no_script_env !! "bin/colorize"
  ∧ trace with_script_env = trace no_script_env
  ∧ declared with_script_env = declared no_script_env
  ∧ outcome with_script_env ≠ outcome no_script_env.
Proof.
  split; [discriminate|].
  assert (is_Some (imported with_script_env) ↔ is_Some (imported no_script_env)) as Hi
    by (split; intros _; by eexists).
  destruct (log_depends_on_two_files_and_import with_script_env no_script_env
              eq_refl eq_refl Hi) as [Ht Hd].
  split; [exact Ht|]. split; [exact Hd|].
  vm_compute. discriminate.
Defined.

(** X7.  The long description given to [setup] is the text of [README] as
    [read] returns it, whole and unchanged. *)
Theorem long_description_is_readme (e : env) (kw : gmap string value) :
  declared e = Some kw →
  ∃ r, cwd e !! "README" = Some (Text r)
       ∧ kw !! "long_description" = Some (VStr r)
       ∧ EvRead "README" ∈ trace e.
Proof.
  intros Hd. destruct (declared_inv e kw Hd) as (f & v & r & Hi & Hv & Hr & ->).
  exists r. split; [done|]. split; [vm_compute; reflexivity|].
  unfold trace. rewrite (run_main_ok e f v r Hi Hv Hr). simpl.
  do 4 apply list_elem_of_further. apply list_elem_of_here.
Qed.

Lemma long_description_is_readme_witness :
  declared sample_env = Some (setup_kwargs "0.1" "Colorize")
  ∧ setup_kwargs "0.1" "Colorize" !! "long_description" = Some (VStr "Colorize").
Proof.
  assert (declared sample_env = Some (setup_kwargs "0.1" "Colorize")) as Hd
    by (vm_compute; reflexivity).
  split; [exact Hd|].
  destruct (long_description_is_readme sample_env _ Hd) as (r & Hr & Hk & _).
  assert (r = "Colorize") as -> by (vm_compute in Hr; congruence).
  exact Hk.
Defined.

(** X8.  The author given to [setup] is [Yann 'Meow' Bordenave], with the
    apostrophes, and the author's address is [meow@meo.wf]. *)
Theorem author_and_email (e : env) (kw : gmap string value) :
  declared e = Some kw →
  kw !! "author" = Some (VStr "Yann 'Meow' Bordenave")
  ∧ kw !! "author_email" = Some (VStr "meow@meo.wf").
Proof.
  intros Hd. destruct (declared_inv e kw Hd) as (f & v & r & _ & _ & _ & ->).
  split; vm_compute; reflexivity.
Qed.

Lemma author_and_email_witness :
  declared sample_env = Some (setup_kwargs "0.1" "Colorize")
  ∧ setup_kwargs "0.1" "Colorize" !! "author_email" = Some (VStr "meow@meo.wf").
Proof.
  assert (declared sample_env = Some (setup_kwargs "0.1" "Colorize")) as Hd
    by (vm_compute; reflexivity).
  split; [exact Hd|exact (proj2 (author_and_email sample_env _ Hd))].
Defined.

(** X9.  Between two runs that get to the call, only [version] and
    [long_description] can differ: every other keyword has the same value,
    or is absent, in both. *)
Theorem only_version_and_description_vary (e e' : env) (kw kw' : gmap string value)
    (k : string) :
  declared e = Some kw →
  declared e' = Some kw' →
  k ≠ "version" →
  k ≠ "long_description" →
  kw !! k = kw' !! k.
Proof.
  intros Hd Hd' Hk1 Hk2.
  destruct (declared_inv e kw Hd) as (f & v & r & _ & _ & _ & ->).
  destruct (declared_inv e' kw' Hd') as (f' & v' & r' & _ & _ & _ & ->).
  unfold setup_kwargs, setup_keywords. cbn [list_to_map foldr uncurry fst snd].
  rewrite !lookup_insert. repeat case_decide; congruence.
Qed.

Lemma only_version_and_description_vary_witness :
  declared sample_env = Some (setup_kwargs "0.1" "Colorize")
  ∧ declared newline_env = Some (setup_kwargs ("0.1" +:+ nl +:+ " ") "Colorize")
  ∧ setup_kwargs "0.1" "Colorize" !! "license"
    = setup_kwargs ("0.1" +:+ nl +:+ " ") "Colorize" !! "license".
Proof.
  assert (declared sample_env = Some (setup_kwargs "0.1" "Colorize")) as Hd
    by (vm_compute; reflexivity).
  assert (declared newline_env = Some (setup_kwargs ("0.1" +:+ nl +:+ " ") "Colorize"))
    as Hd' by (vm_compute; reflexivity).
  split; [exact Hd|]. split; [exact Hd'|].
  apply (only_version_and_description_vary sample_env newline_env _ _ "license" Hd Hd');
    discriminate.
Defined.

(** X10.  No keyword is written twice, so the dict that [setup] receives
    has the ten keywords of the call, each with the value written for it:
    a pair is among the keyword arguments exactly when the dict maps the
    keyword to the value. *)
Theorem keywords_reach_setup_unchanged (v r : string) (k : string) (x : value) :
  ((k, x) ∈ setup_keywords v r ↔ setup_kwargs v r !! k = Some x)
  ∧ size (setup_kwargs v r) = length (setup_keywords v r).
Proof.
  split.
  - unfold setup_kwargs. apply elem_of_list_to_map, setup_keywords_NoDup.
  - vm_compute. reflexivity.
Qed.
